(* Shallow embedding of the routing core of the multi-agent real estate
   assistant: app/graph_nodes.py (router and the two agent nodes),
   app/graph_builder.py (conditional edge and graph), app/graph_state.py
   (state and the add_messages reducer) and the response handling of
   app/main.py (chat_endpoint).  The external LLM calls are arguments:
   each returns either the text of the raised exception (inl) or its
   result (inr). *)

From Stdlib Require Import String Ascii List Bool Arith Lia.
Import ListNotations.
Open Scope string_scope.

(* ------------------------------------------------------------------ *)
(* Python string helpers                                               *)
(* ------------------------------------------------------------------ *)

(** [str.lower] on ASCII characters. *)
Definition ascii_lower (c : ascii) : ascii :=
  let n := nat_of_ascii c in
  if ((65 <=? n) && (n <=? 90))%nat then ascii_of_nat (n + 32)%nat else c.

Fixpoint lower (s : string) : string :=
  match s with
  | EmptyString => EmptyString
  | String c s' => String (ascii_lower c) (lower s')
  end.

Fixpoint is_prefix (p s : string) : bool :=
  match p, s with
  | EmptyString, _ => true
  | String _ _, EmptyString => false
  | String c p', String d s' => Ascii.eqb c d && is_prefix p' s'
  end.

(** Python's [needle in hay] on strings: substring containment. *)
Fixpoint contains (needle hay : string) : bool :=
  is_prefix needle hay ||
  match hay with
  | EmptyString => false
  | String _ hay' => contains needle hay'
  end.

(** Python truthiness of an [Optional[str]]: [None] and [""] are falsy. *)
Definition truthy (o : option string) : bool :=
  match o with
  | Some s => negb (String.eqb s "")
  | None => false
  end.

(** ["sep".join(xs)] *)
Fixpoint join (sep : string) (xs : list string) : string :=
  match xs with
  | [] => ""
  | [x] => x
  | x :: xs' => x ++ sep ++ join sep xs'
  end.

(* ------------------------------------------------------------------ *)
(* Messages (langchain_core.messages)                                  *)
(* ------------------------------------------------------------------ *)

(** A content part dict: [{"type": "text", "text": ...}] or
    [{"type": "image_url", "image_url": {"url": ...}}]. *)
Inductive part :=
| TextPart (text : string)
| ImagePart (url : string).

(** [message.content]: a plain string or a list of parts. *)
Inductive content :=
| CStr (s : string)
| CParts (ps : list part).

(** HumanMessage or AIMessage (SystemMessage never enters the state). *)
Inductive role := Human | AI.

Record message := Msg { msg_role : role; msg_content : content }.

Definition HumanMessage (c : content) : message := Msg Human c.
Definition AIMessage (c : content) : message := Msg AI c.

(** get_text_from_message *)
Definition get_text_from_message (m : message) : string :=
  match msg_content m with
  | CStr s => s
  | CParts ps =>
      (fix first_text (ps : list part) : string :=
         match ps with
         | [] => ""
         | TextPart t :: _ => t
         | ImagePart _ :: ps' => first_text ps'
         end) ps
  end.

(** has_images_in_message *)
Definition has_images_in_message (m : message) : bool :=
  match msg_content m with
  | CStr _ => false
  | CParts ps => existsb (fun p => match p with ImagePart _ => true | _ => false end) ps
  end.

(* ------------------------------------------------------------------ *)
(* Graph state (graph_state.py) and node updates                       *)
(* ------------------------------------------------------------------ *)

Record GraphState := MkState {
  messages : list message;
  agent_decision : option string;
  error : option string
}.

(** The dict a node returns: a key that is absent is [None] here. *)
Record Update := MkUpdate {
  up_decision : option string;
  up_messages : list message;
  up_error : option string
}.

(** LangGraph applies a node's update: [messages] goes through the
    [add_messages] reducer (new messages carry fresh ids, so they are
    appended), the other keys are overwritten when present. *)
Definition apply_update (st : GraphState) (u : Update) : GraphState :=
  MkState (messages st ++ up_messages u)
          (match up_decision u with Some d => Some d | None => agent_decision st end)
          (match up_error u with Some e => Some e | None => error st end).

(* ------------------------------------------------------------------ *)
(* Router (route_request)                                              *)
(* ------------------------------------------------------------------ *)

(** schemas.RouterOutput: [decision] is a Literal of three values. *)
Inductive RawDecision := agent1 | agent2 | clarify.

Record RouterOutput := MkRouterOutput {
  decision : RawDecision;
  clarification_message : option string
}.

Definition decision_str (d : RawDecision) : string :=
  match d with agent1 => "agent1" | agent2 => "agent2" | clarify => "clarify" end.

Definition faq_keywords : list string :=
  ["lease"; "rent"; "landlord"; "tenant"; "deposit"; "agreement";
   "eviction"; "notice"; "law"; "rights"].

Definition no_messages_reply : string :=
  "Something went wrong, no user message found.".
Definition no_image_reply : string :=
  "It looks like you might need help with a visual issue, but you didn't provide an image in your last message. Could you upload one? Or is your question about something else?".
Definition generic_reply : string :=
  "How can I help you further? Please ask a question about a property issue (with an image if needed) or a tenancy topic.".
Definition routing_apology : string :=
  "Sorry, I encountered an issue routing your request. Could you please rephrase or specify if it's about a visual issue (with image) or a tenancy question?".

Definition role_prefix (m : message) : string :=
  match msg_role m with Human => "User" | AI => "Assistant" end.

(** conversation_history_text *)
Definition history_text (ms : list message) : string :=
  join (String "010"%char "")
       (map (fun m => role_prefix m ++ ": " ++ get_text_from_message m) ms).

(** The structured router LLM: given the conversation history text and
    the image flag of the prompt, it raises (inl) or returns a
    RouterOutput (inr). *)
Definition Classifier := string -> bool -> (string + RouterOutput).

(** Override logic of route_request (lines 98-121): final decision and
    clarification text. *)
Definition override (has_images : bool) (last_text : string)
    (o : RouterOutput) : string * option string :=
  let d := decision o in
  let clar := clarification_message o in
  if has_images && (match d with agent2 => true | _ => false end) then
    if negb (existsb (fun k => contains k (lower last_text)) faq_keywords)
    then ("agent1", None)
    else (decision_str d, clar)
  else if negb has_images && (match d with agent1 => true | _ => false end) then
    ("clarify", if truthy clar then clar else Some no_image_reply)
  else if String.eqb (decision_str d) "clarify" && negb (truthy clar) then
    (decision_str d, Some generic_reply)
  else (decision_str d, clar).

Definition route_request (classify : Classifier) (st : GraphState) : Update :=
  let ms := messages st in
  match last ms (Msg Human (CStr "")), ms with
  | _, [] =>
      MkUpdate (Some "clarify") [AIMessage (CStr no_messages_reply)]
               (Some "Routing failed: No messages in state.")
  | last_message, _ =>
      let last_query_text := get_text_from_message last_message in
      let has_img := has_images_in_message last_message in
      match classify (history_text ms) has_img with
      | inl e =>
          MkUpdate (Some "clarify") [AIMessage (CStr routing_apology)]
                   (Some ("Routing failed: " ++ e))
      | inr o =>
          let '(final_decision, clar) := override has_img last_query_text o in
          if String.eqb final_decision "clarify" && truthy clar then
            MkUpdate (Some final_decision)
                     [AIMessage (CStr (match clar with Some c => c | None => "" end))]
                     None
          else MkUpdate (Some final_decision) [] None
      end
  end.

(* ------------------------------------------------------------------ *)
(* Agent nodes (execute_agent1, execute_agent2)                        *)
(* ------------------------------------------------------------------ *)

(** The vision LLM: called with the system prompt and the message list. *)
Definition Agent1Call := list message -> (string + content).
(** The FAQ LLM: its system prompt embeds the latest query text. *)
Definition Agent2Call := string -> list message -> (string + content).

(** Both nodes are reached only after the router, so [messages] is not
    empty there and [history + [user_message]] is the whole list. *)
Definition execute_agent1 (call : Agent1Call) (st : GraphState) : Update :=
  match call (messages st) with
  | inr c => MkUpdate None [AIMessage c] None
  | inl e => MkUpdate None
               [AIMessage (CStr "Sorry, I encountered an error analyzing the image(s).")]
               (Some ("Agent 1 failed: " ++ e))
  end.

Definition execute_agent2 (call : Agent2Call) (st : GraphState) : Update :=
  let query_text := get_text_from_message (last (messages st) (Msg Human (CStr ""))) in
  match call query_text (messages st) with
  | inr c => MkUpdate None [AIMessage c] None
  | inl e => MkUpdate None
               [AIMessage (CStr "Sorry, I encountered an error answering your question.")]
               (Some ("Agent 2 failed: " ++ e))
  end.

(* ------------------------------------------------------------------ *)
(* Graph (graph_builder.py)                                            *)
(* ------------------------------------------------------------------ *)

(** Return values of decide_next_node; [END] is LangGraph's end marker. *)
Inductive EdgeKey := k_issue_detector | k_faq_agent | k_clarify | k_END.

(** decide_next_node *)
Definition decide_next_node (st : GraphState) : EdgeKey :=
  match agent_decision st with
  | Some d =>
      if String.eqb d "agent1" then k_issue_detector
      else if String.eqb d "agent2" then k_faq_agent
      else if String.eqb d "clarify" then k_clarify
      else k_END
  | None => k_END
  end.

(** Nodes a conditional edge can lead to. *)
Inductive Node := issue_detector | faq_agent | END.

(** The path map given to add_conditional_edges. *)
Definition edge_target (k : EdgeKey) : Node :=
  match k with
  | k_issue_detector => issue_detector
  | k_faq_agent => faq_agent
  | k_clarify => END
  | k_END => END
  end.

(** One run of the compiled graph from the entry point "router": the
    final state and the agent nodes executed, in order. *)
Definition run_graph (classify : Classifier) (call1 : Agent1Call)
    (call2 : Agent2Call) (st : GraphState) : GraphState * list Node :=
  let st1 := apply_update st (route_request classify st) in
  match edge_target (decide_next_node st1) with
  | issue_detector => (apply_update st1 (execute_agent1 call1 st1), [issue_detector])
  | faq_agent => (apply_update st1 (execute_agent2 call2 st1), [faq_agent])
  | END => (st1, [])
  end.

(* ------------------------------------------------------------------ *)
(* Chat endpoint (main.py)                                             *)
(* ------------------------------------------------------------------ *)

(** An uploaded file: its content type and the outcome of
    [await image.read()] (the exception text, or the bytes). *)
Record UploadFile := MkUpload {
  content_type : option string;
  read_result : string + string
}.

(** input_message_content: the query as one text part, then one image
    part per valid image ([b64] is base64.b64encode(...).decode()). *)
Fixpoint image_parts (b64 : string -> string) (images : list UploadFile) : list part :=
  match images with
  | [] => []
  | img :: rest =>
      match content_type img with
      | Some ct =>
          if negb (String.eqb ct "") && String.prefix "image/" ct then
            match read_result img with
            | inr bytes =>
                if String.eqb bytes "" then image_parts b64 rest
                else ImagePart ("data:" ++ ct ++ ";base64," ++ b64 bytes)
                       :: image_parts b64 rest
            | inl _ => image_parts b64 rest
            end
          else image_parts b64 rest
      | None => image_parts b64 rest
      end
  end.

Definition input_message_content (b64 : string -> string) (query : string)
    (images : list UploadFile) : list part :=
  TextPart query :: image_parts b64 images.

(** The graph's input for a session whose checkpoint holds [prior]: the
    add_messages reducer appends the new HumanMessage, the two scalar
    fields are reset to None by initial_state. *)
Definition initial_state (prior : list message) (user : message) : GraphState :=
  MkState (prior ++ [user]) None None.

(** Lines 159-190: the response text computed from the final state. *)
Definition response_text_of (final_state : GraphState) : string :=
  let error_message := error final_state in
  let all_messages := messages final_state in
  let last_message :=
    match rev all_messages with [] => None | m :: _ => Some m end in
  let response_text :=
    if truthy error_message then
      "An error occurred: " ++ match error_message with Some e => e | None => "" end
    else "" in
  match last_message with
  | Some (Msg AI c) =>
      if String.eqb response_text "" then
        match c with
        | CStr s => s
        | CParts ps =>
            let text_parts :=
              flat_map (fun p => match p with TextPart t => [t] | _ => [] end) ps in
            match text_parts with
            | [] => "Received a non-standard response."
            | _ => join (String "010"%char "") text_parts
            end
        end
      else response_text
  | Some (Msg Human _) =>
      if String.eqb response_text "" then
        "I received your message, but I'm unable to provide a further response at this time."
      else response_text
  | None =>
      if String.eqb response_text "" then "Chatbot failed to generate a valid response."
      else response_text
  end.

Record ChatResponse := MkChatResponse { response : string; session_id : string }.

(** chat_endpoint: either an HTTP error (status code and detail) or the
    response together with the final state the checkpointer stores for
    the session. *)
Definition chat_endpoint (prior : list message) (sid query : string)
    (images : list UploadFile) (b64 : string -> string)
    (classify : Classifier) (call1 : Agent1Call) (call2 : Agent2Call)
    : (nat * string) + (ChatResponse * GraphState) :=
  if String.eqb sid "" then inl (400, "session_id is required.")
  else
    let user := HumanMessage (CParts (input_message_content b64 query images)) in
    let '(final_state, _) := run_graph classify call1 call2 (initial_state prior user) in
    inr (MkChatResponse (response_text_of final_state) sid, final_state).

(* ------------------------------------------------------------------ *)
(* The spec's reading of a turn's text                                 *)
(* ------------------------------------------------------------------ *)

(** The text parts of a content list, in order. *)
Definition text_parts (ps : list part) : list string :=
  flat_map (fun p => match p with TextPart t => [t] | _ => [] end) ps.

(** The spec's [last_text]: the concatenation of a turn's text parts
    (the whole content when it is a plain string). *)
Definition spec_last_text (m : message) : string :=
  match msg_content m with
  | CStr s => s
  | CParts ps => String.concat "" (text_parts ps)
  end.

(** Some FAQ keyword occurs in the lowercased text. *)
Definition has_faq_keyword (t : string) : bool :=
  existsb (fun k => contains k (lower t)) faq_keywords.

(** An upload the chat endpoint keeps: a non-empty content type starting
    with "image/", read without error, with non-empty bytes. *)
Definition valid_upload (img : UploadFile) : bool :=
  match content_type img with
  | Some ct =>
      negb (String.eqb ct "") && String.prefix "image/" ct &&
      match read_result img with
      | inr bytes => negb (String.eqb bytes "")
      | inl _ => false
      end
  | None => false
  end.

(** The text the endpoint returns for an assistant turn when no error
    was recorded (main.py lines 170-175). *)
Definition ai_turn_text (c : content) : string :=
  match c with
  | CStr s => s
  | CParts ps =>
      let tps := text_parts ps in
      match tps with
      | [] => "Received a non-standard response."
      | _ => join (String "010"%char "") tps
      end
  end.

(* ------------------------------------------------------------------ *)
(* Unfolding lemmas                                                    *)
(* ------------------------------------------------------------------ *)

Definition opt_text (o : option string) : string :=
  match o with Some s => s | None => "" end.

Lemma route_request_nil : forall classify d e,
  route_request classify (MkState [] d e) =
  MkUpdate (Some "clarify") [AIMessage (CStr no_messages_reply)]
           (Some "Routing failed: No messages in state.").
Proof. reflexivity. Qed.

Lemma route_request_snoc : forall classify pre lm d e,
  route_request classify (MkState (pre ++ [lm])%list d e) =
  match classify (history_text (pre ++ [lm])%list) (has_images_in_message lm) with
  | inl x => MkUpdate (Some "clarify") [AIMessage (CStr routing_apology)]
                      (Some ("Routing failed: " ++ x))
  | inr o =>
      let '(fd, clar) := override (has_images_in_message lm) (get_text_from_message lm) o in
      if String.eqb fd "clarify" && truthy clar then
        MkUpdate (Some fd) [AIMessage (CStr (opt_text clar))] None
      else MkUpdate (Some fd) [] None
  end.
Proof.
  intros. unfold route_request. simpl messages. rewrite last_last.
  destruct (pre ++ [lm])%list eqn:E.
  - destruct pre; discriminate.
  - reflexivity.
Qed.

(** A non-empty message list ends in its last element. *)
Lemma snoc_of_nonempty : forall (ms : list message),
  ms <> [] -> exists pre lm, ms = (pre ++ [lm])%list.
Proof.
  intros ms H. destruct (rev ms) as [|lm rpre] eqn:E.
  - apply (f_equal (@rev message)) in E. rewrite rev_involutive in E.
    contradiction.
  - exists (rev rpre), lm. rewrite <- (rev_involutive ms), E. reflexivity.
Qed.

Lemma generic_reply_nonempty : generic_reply <> "".
Proof. discriminate. Qed.

Lemma no_image_reply_nonempty : no_image_reply <> "".
Proof. discriminate. Qed.

Lemma truthy_true : forall o, truthy o = true -> exists s, o = Some s /\ s <> "".
Proof.
  intros [s|] H; simpl in H; [|discriminate].
  exists s. split; [reflexivity|].
  intro Hs. subst. discriminate.
Qed.

(** The override logic yields an agent, or clarify with a text. *)
Lemma override_result : forall h t o fd clar,
  override h t o = (fd, clar) ->
  fd = "agent1" \/ fd = "agent2" \/ (fd = "clarify" /\ truthy clar = true).
Proof.
  intros h t o fd clar H. unfold override in H.
  destruct h, (decision o); simpl in H;
    repeat match type of H with
    | context [if ?b then _ else _] => destruct b eqn:?; simpl in H
    end;
    injection H as <- <-; try tauto; right; right; split; try reflexivity; destruct (truthy (clarification_message o)); simpl in *; congruence.
Qed.

(** The router's update either ends in clarify with one assistant turn,
    or selects an agent and appends nothing. *)
Lemma route_request_shape : forall classify st,
  let u := route_request classify st in
  (up_decision u = Some "clarify" /\ exists c, up_messages u = [AIMessage (CStr c)])
  \/ ((up_decision u = Some "agent1" \/ up_decision u = Some "agent2")
      /\ up_messages u = []).
Proof.
  intros classify [ms d e]. simpl.
  destruct ms as [|m ms'] eqn:Ems.
  - left. split; [reflexivity|]. eexists. reflexivity.
  - destruct (snoc_of_nonempty (m :: ms')) as (pre & lm & Hs); [discriminate|].
    rewrite Hs, route_request_snoc.
    destruct (classify _ _) as [x|o].
    + left. split; [reflexivity|]. eexists. reflexivity.
    + destruct (override _ _ o) as [fd clar] eqn:Ho.
      apply override_result in Ho as [-> | [-> | [-> Ht]]]; simpl.
      * right. auto.
      * right. auto.
      * rewrite Ht. left. split; [reflexivity|]. eexists. reflexivity.
Qed.

(** One run of the graph: the router's decision is the final decision,
    and it alone selects the agent node executed (if any). *)
Lemma run_graph_cases : forall classify call1 call2 st,
  let u := route_request classify st in
  let '(fin, hs) := run_graph classify call1 call2 st in
  agent_decision fin = up_decision u /\
  ((up_decision u = Some "clarify" /\ hs = []
      /\ messages fin = (messages st ++ up_messages u)%list)
   \/ (up_decision u = Some "agent1" /\ hs = [issue_detector]
      /\ up_messages u = []
      /\ exists m, messages fin = (messages st ++ [m])%list)
   \/ (up_decision u = Some "agent2" /\ hs = [faq_agent]
      /\ up_messages u = []
      /\ exists m, messages fin = (messages st ++ [m])%list)).
Proof.
  intros classify call1 call2 st. simpl.
  destruct (route_request_shape classify st) as [[Hd Hm] | [[Hd | Hd] Hm]];
    unfold run_graph, decide_next_node, apply_update; simpl; rewrite Hd; simpl.
  - split; [reflexivity|]. left. auto.
  - unfold execute_agent1. destruct (call1 _) as [x|c]; simpl;
      (split; [reflexivity|]); right; left;
      (split; [reflexivity|]); (split; [reflexivity|]); (split; [exact Hm|]);
      rewrite Hm; eexists; rewrite ?app_nil_r, <- ?app_assoc; reflexivity.
  - unfold execute_agent2. destruct (call2 _ _) as [x|c]; simpl;
      (split; [reflexivity|]); right; right;
      (split; [reflexivity|]); (split; [reflexivity|]); (split; [exact Hm|]);
      rewrite Hm; eexists; rewrite ?app_nil_r, <- ?app_assoc; reflexivity.
Qed.

(* ------------------------------------------------------------------ *)
(* C1: the image/FAQ override                                          *)
(* ------------------------------------------------------------------ *)

(** C1 (amended). When the last turn carries an image and the classifier
    answers agent2 (tenancy_faq), the router scans the lowercased text of
    the last turn's first text part (its whole content when it is a plain
    string) for the ten FAQ keywords: with no match the decision becomes
    agent1 (visual_issue), the clarification is dropped and no turn is
    appended; with a match the decision stays agent2. *)
Theorem route_faq_override_on_images : forall classify pre lm d e o,
  has_images_in_message lm = true ->
  classify (history_text (pre ++ [lm])%list) true = inr o ->
  decision o = agent2 ->
  (has_faq_keyword (get_text_from_message lm) = false ->
     route_request classify (MkState (pre ++ [lm])%list d e)
     = MkUpdate (Some "agent1") [] None)
  /\ (has_faq_keyword (get_text_from_message lm) = true ->
     up_decision (route_request classify (MkState (pre ++ [lm])%list d e))
     = Some "agent2").
Proof.
  intros classify pre lm d e o Himg Hc Hd.
  rewrite route_request_snoc, Himg, Hc. unfold override. rewrite Hd.
  unfold has_faq_keyword.
  split; intro Hk; cbn -[existsb faq_keywords]; rewrite Hk; simpl; [reflexivity|].
  destruct (truthy (clarification_message o)); reflexivity.
Qed.

Lemma route_faq_override_on_images_witness :
  let lm := HumanMessage (CParts [TextPart "there's mold on my ceiling";
                                  ImagePart "data:image/png;base64,AAAA"]) in
  let classify : Classifier := fun _ _ => inr (MkRouterOutput agent2 None) in
  route_request classify (MkState ([] ++ [lm])%list None None)
  = MkUpdate (Some "agent1") [] None.
Proof.
  intros lm classify.
  apply (proj1 (route_faq_override_on_images classify [] lm None None
           (MkRouterOutput agent2 None) eq_refl eq_refl eq_refl)).
  vm_compute. reflexivity.
Defined.

(** C1 counterexample: a last turn whose second text part holds the
    keyword "lease"; the keyword occurs in the turn's text, yet the
    router only scans the first text part and overrides to agent1. *)
Lemma route_faq_override_second_part_cex :
  let lm := HumanMessage (CParts [TextPart "there's mold on my ceiling";
                                  TextPart " next to the lease papers";
                                  ImagePart "data:image/png;base64,AAAA"]) in
  let classify : Classifier := fun _ _ => inr (MkRouterOutput agent2 None) in
  has_faq_keyword (spec_last_text lm) = true
  /\ up_decision (route_request classify (MkState [lm] None None)) = Some "agent1".
Proof. vm_compute. split; reflexivity. Qed.

(* ------------------------------------------------------------------ *)
(* C2: no image, no visual_issue                                       *)
(* ------------------------------------------------------------------ *)

(** C2. When the last turn has no image part, the router never decides
    agent1 (visual_issue) and the graph never runs the issue detector; a
    raw agent1 decision becomes clarify, with the classifier's text if it
    gave a non-empty one and the fixed upload-an-image message otherwise. *)
Theorem route_no_images_never_visual : forall classify call1 call2 pre lm d e,
  has_images_in_message lm = false ->
  let st := MkState (pre ++ [lm])%list d e in
  up_decision (route_request classify st) <> Some "agent1"
  /\ agent_decision (fst (run_graph classify call1 call2 st)) <> Some "agent1"
  /\ ~ In issue_detector (snd (run_graph classify call1 call2 st))
  /\ (forall o, classify (history_text (pre ++ [lm])%list) false = inr o ->
        decision o = agent1 ->
        route_request classify st
        = MkUpdate (Some "clarify")
            [AIMessage (CStr (if truthy (clarification_message o)
                              then opt_text (clarification_message o)
                              else no_image_reply))] None).
Proof.
  intros classify call1 call2 pre lm d e Himg st.
  assert (Hnot : up_decision (route_request classify st) <> Some "agent1").
  { unfold st. rewrite route_request_snoc, Himg.
    destruct (classify _ _) as [x|o]; [discriminate|].
    destruct (override false _ o) as [fd clar] eqn:Ho.
    assert (fd <> "agent1").
    { intros ->. unfold override in Ho. destruct (decision o); simpl in Ho;
        repeat match type of Ho with
        | context [if ?b then _ else _] => destruct b; simpl in Ho
        end; discriminate. }
    destruct (String.eqb fd "clarify" && truthy clar); simpl; congruence. }
  pose proof (run_graph_cases classify call1 call2 st) as Hg. simpl in Hg.
  destruct (run_graph classify call1 call2 st) as [fin hs]. simpl.
  destruct Hg as [Hfin Hc].
  split; [exact Hnot|]. split; [rewrite Hfin; exact Hnot|]. split.
  - destruct Hc as [(_ & -> & _) | [(Hd & _) | (_ & -> & _)]].
    + simpl. tauto.
    + contradiction.
    + simpl. intros [H|H]; [discriminate | exact H].
  - intros o Hc' Hd. unfold st. rewrite route_request_snoc, Himg, Hc'.
    unfold override. rewrite Hd. simpl.
    destruct (truthy (clarification_message o)) eqn:Ht; simpl.
    + rewrite Ht. reflexivity.
    + reflexivity.
Qed.

Lemma route_no_images_never_visual_witness :
  let lm := HumanMessage (CParts [TextPart "my sink leaks"]) in
  let classify : Classifier := fun _ _ => inr (MkRouterOutput agent1 None) in
  let call1 : Agent1Call := fun _ => inr (CStr "analysis") in
  let call2 : Agent2Call := fun _ _ => inr (CStr "answer") in
  has_images_in_message lm = false
  /\ up_decision (route_request classify (MkState ([] ++ [lm])%list None None))
     <> Some "agent1".
Proof.
  intros lm classify call1 call2. split; [reflexivity|].
  exact (proj1 (route_no_images_never_visual classify call1 call2 [] lm None None
                  eq_refl)).
Defined.

(* ------------------------------------------------------------------ *)
(* C3: exactly one branch                                              *)
(* ------------------------------------------------------------------ *)

(** C3. decide_next_node maps agent1 to the issue detector, agent2 to the
    FAQ agent, and clarify, any other value or a missing decision to END
    with no agent node; and in a run of the graph the router's decision is
    always one of the three values, so exactly one outcome happens: the
    issue detector alone (agent1), the FAQ agent alone (agent2), or no
    agent node (clarify). *)
Theorem dispatch_exactly_one : forall classify call1 call2 st,
  (forall s : GraphState,
     edge_target (decide_next_node s)
     = match agent_decision s with
       | Some d => if String.eqb d "agent1" then issue_detector
                   else if String.eqb d "agent2" then faq_agent else END
       | None => END
       end)
  /\ let '(fin, hs) := run_graph classify call1 call2 st in
     (agent_decision fin = Some "agent1" /\ hs = [issue_detector])
     \/ (agent_decision fin = Some "agent2" /\ hs = [faq_agent])
     \/ (agent_decision fin = Some "clarify" /\ hs = []).
Proof.
  intros classify call1 call2 st. split.
  - intros s. unfold decide_next_node.
    destruct (agent_decision s) as [d|]; [|reflexivity].
    destruct (String.eqb d "agent1"); [reflexivity|].
    destruct (String.eqb d "agent2"); [reflexivity|].
    destruct (String.eqb d "clarify"); reflexivity.
  - pose proof (run_graph_cases classify call1 call2 st) as Hg. simpl in Hg.
    destruct (run_graph classify call1 call2 st) as [fin hs].
    destruct Hg as [Hfin [(Hd & Hh & _) | [(Hd & Hh & _) | (Hd & Hh & _)]]];
      rewrite Hfin, Hd; auto.
Qed.

(* ------------------------------------------------------------------ *)
(* C4: classifier failure                                              *)
(* ------------------------------------------------------------------ *)

(** C4. When the classifier call raises, the router returns clarify with
    the fixed apology turn and records "Routing failed: <exception>" in
    the error field; the graph then runs no agent node and ends with that
    decision and error. *)
Theorem route_classifier_failure : forall classify call1 call2 pre lm d e x,
  classify (history_text (pre ++ [lm])%list) (has_images_in_message lm) = inl x ->
  let st := MkState (pre ++ [lm])%list d e in
  route_request classify st
  = MkUpdate (Some "clarify") [AIMessage (CStr routing_apology)]
             (Some ("Routing failed: " ++ x))
  /\ run_graph classify call1 call2 st
     = (MkState ((pre ++ [lm]) ++ [AIMessage (CStr routing_apology)])%list
                (Some "clarify") (Some ("Routing failed: " ++ x)), []).
Proof.
  intros classify call1 call2 pre lm d e x Hc st.
  assert (Hr : route_request classify st
               = MkUpdate (Some "clarify") [AIMessage (CStr routing_apology)]
                          (Some ("Routing failed: " ++ x))).
  { unfold st. rewrite route_request_snoc, Hc. reflexivity. }
  split; [exact Hr|].
  unfold run_graph. rewrite Hr. reflexivity.
Qed.

Lemma route_classifier_failure_witness :
  let lm := HumanMessage (CParts [TextPart "hello"]) in
  let classify : Classifier := fun _ _ => inl "Request timed out." in
  let call1 : Agent1Call := fun _ => inr (CStr "analysis") in
  let call2 : Agent2Call := fun _ _ => inr (CStr "answer") in
  snd (run_graph classify call1 call2 (MkState ([] ++ [lm])%list None None)) = [].
Proof.
  intros lm classify call1 call2.
  rewrite (proj2 (route_classifier_failure classify call1 call2 [] lm None None
                    "Request timed out." eq_refl)).
  reflexivity.
Defined.

(* ------------------------------------------------------------------ *)
(* C5: empty conversation                                              *)
(* ------------------------------------------------------------------ *)

(** C5. On a state with no messages the router returns clarify, appends
    the generic apology turn and records the failure in the error field;
    the graph runs no agent node. *)
Theorem route_empty_conversation : forall classify call1 call2 d e,
  route_request classify (MkState [] d e)
  = MkUpdate (Some "clarify") [AIMessage (CStr no_messages_reply)]
             (Some "Routing failed: No messages in state.")
  /\ run_graph classify call1 call2 (MkState [] d e)
     = (MkState [AIMessage (CStr no_messages_reply)] (Some "clarify")
                (Some "Routing failed: No messages in state."), []).
Proof. intros. split; reflexivity. Qed.

(* ------------------------------------------------------------------ *)
(* C6: the clarification turn                                          *)
(* ------------------------------------------------------------------ *)

Ltac destruct_ifs :=
  repeat match goal with
  | |- context [if ?b then _ else _] => destruct b eqn:?; simpl
  end.

(** C6 (amended). After a successful classification, a final clarify
    decision comes with exactly one new assistant turn whose text is
    non-empty: the classifier's text when it is non-empty, otherwise the
    fixed upload-an-image message when a raw agent1 decision was
    overridden for lack of images, or the fixed generic "how can I help"
    message when the raw decision was clarify; a final agent1 or agent2
    decision appends no turn. *)
Theorem route_clarify_turn : forall classify pre lm d e o,
  classify (history_text (pre ++ [lm])%list) (has_images_in_message lm) = inr o ->
  let u := route_request classify (MkState (pre ++ [lm])%list d e) in
  (up_decision u = Some "clarify" ->
     exists c, up_messages u = [AIMessage (CStr c)] /\ c <> ""
     /\ c = (if truthy (clarification_message o)
             then opt_text (clarification_message o)
             else match decision o with
                  | agent1 => no_image_reply
                  | _ => generic_reply
                  end))
  /\ (up_decision u <> Some "clarify" -> up_messages u = []).
Proof.
  intros classify pre lm d e o Hc u. unfold u.
  rewrite route_request_snoc, Hc. unfold override.
  destruct (has_images_in_message lm), (decision o) eqn:Hd; simpl;
    destruct (truthy (clarification_message o)) eqn:Ht; simpl;
    destruct_ifs; simpl in *; try discriminate;
    try (split; [discriminate | reflexivity]);
    try (split; [intros _ | intros H; contradiction H; reflexivity]);
    try (eexists; split; [reflexivity|]; split; [|reflexivity];
         first [ discriminate
               | match goal with
                 | H : truthy ?o = true |- _ =>
                     destruct (truthy_true o H) as (s & -> & Hs); exact Hs
                 end ]).
Qed.

Lemma route_clarify_turn_witness :
  let lm := HumanMessage (CParts [TextPart "hello"]) in
  let classify : Classifier := fun _ _ => inr (MkRouterOutput clarify None) in
  up_messages (route_request classify (MkState ([] ++ [lm])%list None None))
  = [AIMessage (CStr generic_reply)].
Proof.
  intros lm classify.
  destruct (proj1 (route_clarify_turn classify [] lm None None
                     (MkRouterOutput clarify None) eq_refl) eq_refl)
    as (c & Hm & _ & Hc).
  rewrite Hm, Hc. reflexivity.
Defined.

(** C6 counterexample: a raw agent1 decision without text on a turn
    without image ends in clarify, but the turn appended is the
    upload-an-image message, not the generic "how can I help" one. *)
Lemma route_clarify_turn_cex :
  let lm := HumanMessage (CParts [TextPart "my sink leaks"]) in
  let classify : Classifier := fun _ _ => inr (MkRouterOutput agent1 None) in
  let u := route_request classify (MkState [lm] None None) in
  up_decision u = Some "clarify"
  /\ up_messages u = [AIMessage (CStr no_image_reply)]
  /\ up_messages u <> [AIMessage (CStr generic_reply)].
Proof.
  vm_compute. split; [reflexivity|]. split; [reflexivity|]. discriminate.
Qed.

(* ------------------------------------------------------------------ *)
(* C7: what the user sees after a failure                              *)
(* ------------------------------------------------------------------ *)

(** C7 (amended). Whenever the final state records a non-empty error e,
    the chat response is exactly "An error occurred: " followed by e,
    whatever message ends the conversation. In particular, for the
    request's user turn:
    - when the router's classifier raises x, the user receives
      "An error occurred: Routing failed: " followed by x;
    - when the router chose agent1 and the vision LLM raises x, the user
      receives "An error occurred: Agent 1 failed: " followed by x;
    - when the router chose agent2 and the FAQ LLM raises x, the user
      receives "An error occurred: Agent 2 failed: " followed by x;
    and in each case the failing component's apology turn is the last
    turn of the stored conversation (after the prior turns and the user
    turn) but is not the returned text. *)
Theorem chat_error_response : forall prior sid query images b64 classify call1 call2,
  let user := HumanMessage (CParts (input_message_content b64 query images)) in
  (forall st, truthy (error st) = true ->
     response_text_of st = "An error occurred: " ++ opt_text (error st))
  /\ (forall x, String.eqb sid "" = false ->
      classify (history_text (prior ++ [user])%list) (has_images_in_message user) = inl x ->
      chat_endpoint prior sid query images b64 classify call1 call2
      = inr (MkChatResponse ("An error occurred: Routing failed: " ++ x) sid,
             MkState (prior ++ [user; AIMessage (CStr routing_apology)])%list
                     (Some "clarify") (Some ("Routing failed: " ++ x))))
  /\ (forall x, String.eqb sid "" = false ->
      up_decision (route_request classify (initial_state prior user)) = Some "agent1" ->
      call1 (prior ++ [user])%list = inl x ->
      chat_endpoint prior sid query images b64 classify call1 call2
      = inr (MkChatResponse ("An error occurred: Agent 1 failed: " ++ x) sid,
             MkState (prior ++ [user; AIMessage (CStr "Sorry, I encountered an error analyzing the image(s).")])%list
                     (Some "agent1") (Some ("Agent 1 failed: " ++ x))))
  /\ (forall x, String.eqb sid "" = false ->
      up_decision (route_request classify (initial_state prior user)) = Some "agent2" ->
      call2 (get_text_from_message user) (prior ++ [user])%list = inl x ->
      chat_endpoint prior sid query images b64 classify call1 call2
      = inr (MkChatResponse ("An error occurred: Agent 2 failed: " ++ x) sid,
             MkState (prior ++ [user; AIMessage (CStr "Sorry, I encountered an error answering your question.")])%list
                     (Some "agent2") (Some ("Agent 2 failed: " ++ x)))).
Proof.
  intros prior sid query images b64 classify call1 call2 user.
  assert (Hgen : forall st, truthy (error st) = true ->
            response_text_of st = "An error occurred: " ++ opt_text (error st)).
  { intros [ms d e] Ht. simpl in Ht.
    destruct (truthy_true e Ht) as (s & -> & Hs).
    assert (E : String.eqb s "" = false) by (apply String.eqb_neq; exact Hs).
    unfold response_text_of. simpl. rewrite E. simpl.
    destruct (rev ms) as [|[[|] c] _]; reflexivity. }
  split; [exact Hgen|]. split; [|split].
  - intros x Hs Hc.
    unfold chat_endpoint. rewrite Hs. fold user.
    unfold run_graph, initial_state. rewrite route_request_snoc, Hc. simpl.
    rewrite Hgen by reflexivity. unfold apply_update. simpl.
    rewrite <- ?app_assoc. reflexivity.
  - intros x Hs Hd Hc.
    unfold chat_endpoint. rewrite Hs. fold user.
    destruct (route_request_shape classify (initial_state prior user))
      as [[Hd' _] | [_ Hm]]; [rewrite Hd in Hd'; discriminate|].
    unfold run_graph.
    destruct (route_request classify (initial_state prior user)) as [ud um ue].
    simpl in Hd, Hm. subst ud um.
    unfold apply_update at 2. simpl. unfold execute_agent1.
    unfold initial_state. simpl. rewrite app_nil_r, Hc.
    rewrite Hgen by reflexivity.
    unfold apply_update. simpl. rewrite <- ?app_assoc. reflexivity.
  - intros x Hs Hd Hc.
    unfold chat_endpoint. rewrite Hs. fold user.
    destruct (route_request_shape classify (initial_state prior user))
      as [[Hd' _] | [_ Hm]]; [rewrite Hd in Hd'; discriminate|].
    unfold run_graph.
    destruct (route_request classify (initial_state prior user)) as [ud um ue].
    simpl in Hd, Hm. subst ud um.
    unfold apply_update at 2. simpl. unfold execute_agent2.
    unfold initial_state. simpl. rewrite app_nil_r, last_last, Hc.
    rewrite Hgen by reflexivity.
    unfold apply_update. simpl. rewrite <- ?app_assoc. reflexivity.
Qed.

Lemma chat_error_response_witness :
  let classify : Classifier := fun _ _ => inl "Request timed out." in
  let route1 : Classifier := fun _ _ => inr (MkRouterOutput agent1 None) in
  let call1 : Agent1Call := fun _ => inl "Connection reset." in
  let call2 : Agent2Call := fun _ _ => inr (CStr "answer") in
  let images := [MkUpload (Some "image/png") (inr "xyz")] in
  chat_endpoint [] "s" "hello" [] (fun b => b) classify call1 call2
  = inr (MkChatResponse "An error occurred: Routing failed: Request timed out." "s",
         MkState [HumanMessage (CParts [TextPart "hello"]); AIMessage (CStr routing_apology)]
                 (Some "clarify") (Some "Routing failed: Request timed out."))
  /\ response (fst (match chat_endpoint [] "s" "crack" images (fun b => b) route1 call1 call2 with
                    | inr p => p
                    | inl _ => (MkChatResponse "" "", MkState [] None None)
                    end))
     = "An error occurred: Agent 1 failed: Connection reset.".
Proof.
  intros classify route1 call1 call2 images. split.
  - exact (proj1 (proj2 (chat_error_response [] "s" "hello" [] (fun b => b)
                           classify call1 call2)) "Request timed out." eq_refl eq_refl).
  - rewrite (proj1 (proj2 (proj2 (chat_error_response [] "s" "crack" images (fun b => b)
                                    route1 call1 call2)))
               "Connection reset." eq_refl eq_refl eq_refl).
    reflexivity.
Defined.

(** C7 counterexample: the router's classifier times out; the text the
    user receives contains the raw exception text. *)
Lemma chat_error_response_cex :
  let classify : Classifier := fun _ _ => inl "Request timed out." in
  let call1 : Agent1Call := fun _ => inr (CStr "analysis") in
  let call2 : Agent2Call := fun _ _ => inr (CStr "answer") in
  match chat_endpoint [] "s" "hello" [] (fun b => b) classify call1 call2 with
  | inr (r, st) =>
      error st = Some "Routing failed: Request timed out."
      /\ response r = "An error occurred: Routing failed: Request timed out."
      /\ contains "Request timed out." (response r) = true
  | inl _ => False
  end.
Proof. vm_compute. split; [reflexivity|]. split; reflexivity. Qed.

(* ------------------------------------------------------------------ *)
(* C8: the text of a turn                                              *)
(* ------------------------------------------------------------------ *)

Lemma text_parts_image_parts : forall b64 images,
  text_parts (image_parts b64 images) = [].
Proof.
  intros b64 images. induction images as [|img rest IH]; [reflexivity|].
  simpl. destruct (content_type img) as [ct|]; [|exact IH].
  destruct (negb (String.eqb ct "") && String.prefix "image/" ct); [|exact IH].
  destruct (read_result img) as [_|bytes]; [exact IH|].
  destruct (String.eqb bytes ""); exact IH.
Qed.

(** C8 (amended). The text the router reads from a turn (its last_text,
    and each line of the transcript) is the whole content when it is a
    plain string, and otherwise the first of its text parts, or "" when
    it has none; for the user turns the chat endpoint builds (the query
    as the only text part) this is the concatenation of the text parts. *)
Theorem get_text_first_text_part :
  (forall r s, get_text_from_message (Msg r (CStr s)) = s)
  /\ (forall r ps, get_text_from_message (Msg r (CParts ps)) = hd "" (text_parts ps))
  /\ (forall b64 query images,
        let m := HumanMessage (CParts (input_message_content b64 query images)) in
        get_text_from_message m = query /\ spec_last_text m = query).
Proof.
  split; [reflexivity|]. split.
  - intros r ps. unfold get_text_from_message. simpl.
    induction ps as [|[t|u] ps IH]; simpl; [reflexivity | reflexivity | exact IH].
  - intros b64 query images. simpl. split; [reflexivity|].
    unfold spec_last_text. simpl.
    change (text_parts (TextPart query :: image_parts b64 images))
      with (query :: text_parts (image_parts b64 images)).
    rewrite text_parts_image_parts. reflexivity.
Qed.

(** C8 counterexample: a turn with two text parts; the router reads only
    the first one. *)
Lemma get_text_two_parts_cex :
  let m := HumanMessage (CParts [TextPart "mold on "; TextPart "my ceiling"]) in
  get_text_from_message m = "mold on "
  /\ spec_last_text m = "mold on my ceiling"
  /\ get_text_from_message m <> spec_last_text m.
Proof. vm_compute. split; [reflexivity|]. split; [reflexivity|]. discriminate. Qed.

(* ------------------------------------------------------------------ *)
(* C9: growth of the conversation                                      *)
(* ------------------------------------------------------------------ *)

(** C9 (amended). A request on a session whose conversation has N turns
    leaves it with exactly N + 2 turns: the prior turns unchanged, then
    the user turn, then one assistant turn. When the request ends in
    clarify no agent node runs and that assistant turn is the one the
    router appended; otherwise the router appended nothing, exactly one
    agent node ran (the issue detector for agent1, the FAQ agent for
    agent2) and the assistant turn is the one that node appended. *)
Theorem chat_conversation_growth :
  forall prior sid query images b64 classify call1 call2 r st,
  let user := HumanMessage (CParts (input_message_content b64 query images)) in
  let st0 := initial_state prior user in
  let u := route_request classify st0 in
  let st1 := apply_update st0 u in
  let hs := snd (run_graph classify call1 call2 st0) in
  chat_endpoint prior sid query images b64 classify call1 call2 = inr (r, st) ->
  length (messages st) = length prior + 2
  /\ exists c, messages st = (prior ++ [user; AIMessage c])%list
     /\ ((agent_decision st = Some "clarify" /\ hs = []
          /\ up_messages u = [AIMessage c])
         \/ (agent_decision st = Some "agent1" /\ hs = [issue_detector]
             /\ up_messages u = []
             /\ up_messages (execute_agent1 call1 st1) = [AIMessage c])
         \/ (agent_decision st = Some "agent2" /\ hs = [faq_agent]
             /\ up_messages u = []
             /\ up_messages (execute_agent2 call2 st1) = [AIMessage c])).
Proof.
  intros prior sid query images b64 classify call1 call2 r st user st0 u st1 hs H.
  unfold chat_endpoint in H.
  destruct (String.eqb sid "") eqn:Hs; [discriminate|].
  fold user st0 in H.
  assert (Hcore : exists c, messages st = (prior ++ [user; AIMessage c])%list
     /\ ((agent_decision st = Some "clarify" /\ hs = []
          /\ up_messages u = [AIMessage c])
         \/ (agent_decision st = Some "agent1" /\ hs = [issue_detector]
             /\ up_messages u = []
             /\ up_messages (execute_agent1 call1 st1) = [AIMessage c])
         \/ (agent_decision st = Some "agent2" /\ hs = [faq_agent]
             /\ up_messages u = []
             /\ up_messages (execute_agent2 call2 st1) = [AIMessage c]))).
  { unfold hs, st1, u. unfold run_graph in H |- *.
    destruct (route_request_shape classify st0) as [[Hd [c0 Hm]] | [[Hd | Hd] Hm]];
      destruct (route_request classify st0) as [ud um ue];
      simpl in Hd, Hm; subst ud um; simpl in H |- *.
    - injection H as _ <-. exists (CStr c0). simpl.
      split; [unfold st0, initial_state; simpl; rewrite <- app_assoc; reflexivity|].
      left. auto.
    - unfold execute_agent1 in H |- *.
      destruct (call1 _) as [x|c]; simpl in H |- *; injection H as _ <-;
        eexists; (split; [unfold st0, initial_state; simpl;
                          rewrite app_nil_r, <- app_assoc; reflexivity|]);
        right; left; auto.
    - unfold execute_agent2 in H |- *.
      destruct (call2 _ _) as [x|c]; simpl in H |- *; injection H as _ <-;
        eexists; (split; [unfold st0, initial_state; simpl;
                          rewrite app_nil_r, <- app_assoc; reflexivity|]);
        right; right; auto. }
  destruct Hcore as (c & Hm & Hrest). split.
  - rewrite Hm, length_app. simpl. lia.
  - exists c. split; [exact Hm | exact Hrest].
Qed.

Lemma chat_conversation_growth_witness :
  let classify : Classifier := fun _ _ => inr (MkRouterOutput clarify (Some "Hi!")) in
  let call1 : Agent1Call := fun _ => inr (CStr "analysis") in
  let call2 : Agent2Call := fun _ _ => inr (CStr "answer") in
  let res := chat_endpoint [] "s" "hello" [] (fun b => b) classify call1 call2 in
  match res with
  | inr (r, st) => length (messages st) = 0 + 2
  | inl _ => False
  end.
Proof.
  intros classify call1 call2 res.
  destruct res as [err | [r st]] eqn:E; [discriminate|].
  exact (proj1 (chat_conversation_growth [] "s" "hello" [] (fun b => b)
                  classify call1 call2 r st E)).
Defined.

(** C9 counterexample: on an empty conversation (N = 0) a request the
    router answers with clarify runs no agent node, yet the conversation
    ends with 2 turns, not N + 1 = 1. *)
Lemma chat_conversation_growth_cex :
  let classify : Classifier := fun _ _ => inr (MkRouterOutput clarify (Some "Hi!")) in
  let call1 : Agent1Call := fun _ => inr (CStr "analysis") in
  let call2 : Agent2Call := fun _ _ => inr (CStr "answer") in
  snd (run_graph classify call1 call2
         (initial_state [] (HumanMessage (CParts [TextPart "hello"])))) = []
  /\ match chat_endpoint [] "s" "hello" [] (fun b => b) classify call1 call2 with
     | inr (r, st) => agent_decision st = Some "clarify"
                      /\ length (messages st) = 2 /\ length (messages st) <> 0 + 1
     | inl _ => False
     end.
Proof.
  vm_compute. split; [reflexivity|]. split; [reflexivity|]. split; [reflexivity|].
  discriminate.
Qed.

(* ------------------------------------------------------------------ *)
(* C10: substring matching of the FAQ keywords                         *)
(* ------------------------------------------------------------------ *)

(** C10. The keyword scan is substring containment: for a last turn with
    an image whose text holds "rent" only inside "parent", and a raw
    agent2 decision, "rent" counts as a match (and is the only keyword
    found), the override does not fire and the decision stays agent2. *)
Theorem faq_keyword_substring_match :
  let lm := HumanMessage (CParts [TextPart "My parent says the wall is cracked";
                                  ImagePart "data:image/png;base64,AAAA"]) in
  let classify : Classifier := fun _ _ => inr (MkRouterOutput agent2 None) in
  has_images_in_message lm = true
  /\ filter (fun k => contains k (lower (get_text_from_message lm))) faq_keywords = ["rent"]
  /\ route_request classify (MkState [lm] None None) = MkUpdate (Some "agent2") [] None.
Proof. vm_compute. split; [reflexivity|]. split; reflexivity. Qed.

(* ------------------------------------------------------------------ *)
(* Further properties: image uploads (main.py, chat_endpoint)          *)
(* ------------------------------------------------------------------ *)

Lemma image_parts_app : forall b64 xs ys,
  image_parts b64 (xs ++ ys) = (image_parts b64 xs ++ image_parts b64 ys)%list.
Proof.
  intros b64 xs ys. induction xs as [|img xs IH]; [reflexivity|].
  simpl. destruct (content_type img) as [ct|]; [|exact IH].
  destruct (negb (String.eqb ct "") && String.prefix "image/" ct); [|exact IH].
  destruct (read_result img) as [_|bytes]; [exact IH|].
  destruct (String.eqb bytes ""); [exact IH|]. simpl. rewrite IH. reflexivity.
Qed.

Lemma image_parts_single_invalid : forall b64 img,
  valid_upload img = false -> image_parts b64 [img] = [].
Proof.
  intros b64 img H. unfold valid_upload in H. simpl.
  destruct (content_type img) as [ct|]; [|reflexivity].
  destruct (negb (String.eqb ct "") && String.prefix "image/" ct); [|reflexivity].
  destruct (read_result img) as [_|bytes]; [reflexivity|].
  destruct (String.eqb bytes ""); [reflexivity | discriminate].
Qed.

(** A rejected upload (missing or non-image content type, read error,
    empty file) is skipped on its own: removing it from the upload list
    leaves the image parts of the user turn unchanged. *)
Theorem image_parts_skip_invalid : forall b64 xs img ys,
  valid_upload img = false ->
  image_parts b64 (xs ++ img :: ys) = image_parts b64 (xs ++ ys).
Proof.
  intros b64 xs img ys H.
  change (img :: ys) with ([img] ++ ys)%list.
  rewrite !image_parts_app, image_parts_single_invalid by exact H.
  reflexivity.
Qed.

Lemma image_parts_skip_invalid_witness :
  let good := MkUpload (Some "image/png") (inr "xyz") in
  let bad := MkUpload (Some "application/pdf") (inr "%PDF") in
  image_parts (fun b => b) ([good] ++ bad :: [good])%list
  = image_parts (fun b => b) ([good] ++ [good])%list.
Proof.
  intros good bad. apply image_parts_skip_invalid. reflexivity.
Defined.

Lemma prefix_app_r : forall p s r,
  String.prefix p s = true -> String.prefix p (s ++ r) = true.
Proof.
  induction p as [|a p IH]; intros s r H.
  { destruct (s ++ r)%string; reflexivity. }
  destruct s as [|b s]; [discriminate|]. simpl in *.
  destruct (ascii_dec a b); [apply IH; exact H | discriminate].
Qed.

(** The user turn gets one image part per valid upload, in order of
    upload, and every image part is a data URL of an image type (its url
    starts with "data:image/"). *)
Theorem image_parts_valid_data_urls : forall b64 images,
  length (image_parts b64 images) = length (filter valid_upload images)
  /\ Forall (fun p => match p with
                      | ImagePart url => String.prefix "data:image/" url = true
                      | TextPart _ => False
                      end) (image_parts b64 images).
Proof.
  intros b64 images. induction images as [|img rest [IHl IHf]];
    [split; [reflexivity | constructor]|].
  simpl. unfold valid_upload at 1.
  destruct (content_type img) as [ct|]; [|split; assumption].
  destruct (String.prefix "image/" ct) eqn:Hp;
    [|rewrite andb_false_r; simpl; split; assumption].
  destruct (negb (String.eqb ct "")); simpl; [|split; assumption].
  destruct (read_result img) as [_|bytes]; simpl; [split; assumption|].
  destruct (String.eqb bytes ""); simpl; [split; assumption|].
  split; [rewrite IHl; reflexivity|].
  constructor; [|exact IHf].
  apply prefix_app_r. exact Hp.
Qed.

(* ------------------------------------------------------------------ *)
(* Further properties: agent failures, router error field, overrides   *)
(* ------------------------------------------------------------------ *)

(** A recorded non-empty error takes precedence in the response text. *)
Lemma response_text_of_error : forall st,
  truthy (error st) = true ->
  response_text_of st = "An error occurred: " ++ opt_text (error st).
Proof.
  intros [ms d e] Ht. simpl in Ht.
  destruct (truthy_true e Ht) as (s & -> & Hs).
  assert (E : String.eqb s "" = false) by (apply String.eqb_neq; exact Hs).
  unfold response_text_of. simpl. rewrite E. simpl.
  destruct (rev ms) as [|[[|] c] _]; reflexivity.
Qed.

(** When the router sends a request to the issue detector and the vision
    LLM raises x, the chat response is "An error occurred: Agent 1
    failed: x"; the stored conversation is the prior one, the user turn
    and the fixed apology turn, with decision agent1 and that error. *)
Theorem chat_agent1_failure :
  forall prior sid query images b64 classify call1 call2 x,
  let user := HumanMessage (CParts (input_message_content b64 query images)) in
  String.eqb sid "" = false ->
  up_decision (route_request classify (initial_state prior user)) = Some "agent1" ->
  (forall ms, call1 ms = inl x) ->
  chat_endpoint prior sid query images b64 classify call1 call2
  = inr (MkChatResponse ("An error occurred: Agent 1 failed: " ++ x) sid,
         MkState (prior ++ [user; AIMessage (CStr "Sorry, I encountered an error analyzing the image(s).")])%list
                 (Some "agent1") (Some ("Agent 1 failed: " ++ x))).
Proof.
  intros prior sid query images b64 classify call1 call2 x user Hs Hd Hc.
  unfold chat_endpoint. rewrite Hs. fold user.
  destruct (route_request_shape classify (initial_state prior user))
    as [[Hd' _] | [_ Hm]]; [rewrite Hd in Hd'; discriminate|].
  unfold run_graph.
  destruct (route_request classify (initial_state prior user)) as [ud um ue].
  simpl in Hd, Hm. subst ud um.
  unfold apply_update at 2. simpl. unfold execute_agent1. rewrite Hc.
  unfold initial_state. simpl. rewrite ?app_nil_r, <- ?app_assoc.
  rewrite response_text_of_error by reflexivity.
  unfold apply_update. simpl. rewrite ?app_nil_r, <- ?app_assoc. reflexivity.
Qed.

Lemma chat_agent1_failure_witness :
  let images := [MkUpload (Some "image/png") (inr "xyz")] in
  let classify : Classifier := fun _ _ => inr (MkRouterOutput agent1 None) in
  let call1 : Agent1Call := fun _ => inl "Connection reset." in
  let call2 : Agent2Call := fun _ _ => inr (CStr "answer") in
  match chat_endpoint [] "s" "crack in the wall" images (fun b => b) classify call1 call2 with
  | inr (r, _) => response r = "An error occurred: Agent 1 failed: Connection reset."
  | inl _ => False
  end.
Proof.
  intros images classify call1 call2.
  rewrite (chat_agent1_failure [] "s" "crack in the wall" images (fun b => b)
             classify call1 call2 "Connection reset." eq_refl eq_refl
             (fun _ => eq_refl)).
  reflexivity.
Defined.

(** When the router sends a request to the FAQ agent and its LLM raises
    x, the chat response is "An error occurred: Agent 2 failed: x"; the
    stored conversation is the prior one, the user turn and the fixed
    apology turn, with decision agent2 and that error. *)
Theorem chat_agent2_failure :
  forall prior sid query images b64 classify call1 call2 x,
  let user := HumanMessage (CParts (input_message_content b64 query images)) in
  String.eqb sid "" = false ->
  up_decision (route_request classify (initial_state prior user)) = Some "agent2" ->
  (forall q ms, call2 q ms = inl x) ->
  chat_endpoint prior sid query images b64 classify call1 call2
  = inr (MkChatResponse ("An error occurred: Agent 2 failed: " ++ x) sid,
         MkState (prior ++ [user; AIMessage (CStr "Sorry, I encountered an error answering your question.")])%list
                 (Some "agent2") (Some ("Agent 2 failed: " ++ x))).
Proof.
  intros prior sid query images b64 classify call1 call2 x user Hs Hd Hc.
  unfold chat_endpoint. rewrite Hs. fold user.
  destruct (route_request_shape classify (initial_state prior user))
    as [[Hd' _] | [_ Hm]]; [rewrite Hd in Hd'; discriminate|].
  unfold run_graph.
  destruct (route_request classify (initial_state prior user)) as [ud um ue].
  simpl in Hd, Hm. subst ud um.
  unfold apply_update at 2. simpl. unfold execute_agent2. rewrite Hc.
  unfold initial_state. simpl. rewrite ?app_nil_r, <- ?app_assoc.
  rewrite response_text_of_error by reflexivity.
  unfold apply_update. simpl. rewrite ?app_nil_r, <- ?app_assoc. reflexivity.
Qed.

Lemma chat_agent2_failure_witness :
  let classify : Classifier := fun _ _ => inr (MkRouterOutput agent2 None) in
  let call1 : Agent1Call := fun _ => inr (CStr "analysis") in
  let call2 : Agent2Call := fun _ _ => inl "Rate limit reached." in
  match chat_endpoint [] "s" "when is rent due?" [] (fun b => b) classify call1 call2 with
  | inr (r, _) => response r = "An error occurred: Agent 2 failed: Rate limit reached."
  | inl _ => False
  end.
Proof.
  intros classify call1 call2.
  rewrite (chat_agent2_failure [] "s" "when is rent due?" [] (fun b => b)
             classify call1 call2 "Rate limit reached." eq_refl eq_refl
             (fun _ _ => eq_refl)).
  reflexivity.
Defined.

(** On a non-empty conversation the router sets the error field exactly
    when the classifier call raises, to "Routing failed: " followed by
    the exception text; a successful classification leaves it unset. *)
Theorem route_error_iff_classifier_failure : forall classify pre lm d e,
  up_error (route_request classify (MkState (pre ++ [lm])%list d e))
  = match classify (history_text (pre ++ [lm])%list) (has_images_in_message lm) with
    | inl x => Some ("Routing failed: " ++ x)
    | inr _ => None
    end.
Proof.
  intros classify pre lm d e. rewrite route_request_snoc.
  destruct (classify _ _) as [x|o]; [reflexivity|].
  destruct (override _ _ o) as [fd clar].
  destruct (String.eqb fd "clarify" && truthy clar); reflexivity.
Qed.

(** After a successful classification the router changes the raw
    decision only in the two override cases: agent2 on a turn with an
    image and without FAQ keyword (to agent1), and agent1 on a turn
    without image (to clarify). In every other case the final decision
    is the raw one. *)
Theorem route_decision_changes_only_by_override : forall classify pre lm d e o,
  classify (history_text (pre ++ [lm])%list) (has_images_in_message lm) = inr o ->
  up_decision (route_request classify (MkState (pre ++ [lm])%list d e))
    <> Some (decision_str (decision o)) ->
  (has_images_in_message lm = true /\ decision o = agent2
   /\ has_faq_keyword (get_text_from_message lm) = false
   /\ up_decision (route_request classify (MkState (pre ++ [lm])%list d e)) = Some "agent1")
  \/ (has_images_in_message lm = false /\ decision o = agent1
   /\ up_decision (route_request classify (MkState (pre ++ [lm])%list d e)) = Some "clarify").
Proof.
  intros classify pre lm d e o Hc Hne.
  rewrite route_request_snoc, Hc in *. unfold override in *.
  change (existsb (fun k => contains k (lower (get_text_from_message lm))) faq_keywords)
    with (has_faq_keyword (get_text_from_message lm)) in *.
  destruct (has_faq_keyword (get_text_from_message lm)) eqn:Hk,
    (has_images_in_message lm), (decision o); simpl in *;
    repeat match goal with
    | |- context [if ?b then _ else _] => destruct b; simpl in *
    end;
    try (exfalso; apply Hne; reflexivity); auto.
Qed.

Lemma route_decision_changes_only_by_override_witness :
  let lm := HumanMessage (CParts [TextPart "mold"; ImagePart "data:image/png;base64,AA"]) in
  let classify : Classifier := fun _ _ => inr (MkRouterOutput agent2 None) in
  has_faq_keyword (get_text_from_message lm) = false.
Proof.
  intros lm classify.
  destruct (route_decision_changes_only_by_override classify [] lm None None
              (MkRouterOutput agent2 None) eq_refl ltac:(discriminate))
    as [(_ & _ & Hk & _) | (Hi & _)]; [exact Hk | discriminate].
Defined.

(* ------------------------------------------------------------------ *)
(* Further properties: one assistant turn per run, the response text   *)
(* ------------------------------------------------------------------ *)

Lemma run_graph_one_turn : forall classify call1 call2 st,
  exists c, messages (fst (run_graph classify call1 call2 st))
            = (messages st ++ [AIMessage c])%list.
Proof.
  intros classify call1 call2 st.
  destruct (route_request_shape classify st) as [[Hd [c Hm]] | [[Hd | Hd] Hm]];
    unfold run_graph; destruct (route_request classify st) as [ud um ue];
    simpl in Hd, Hm; subst ud um.
  - exists (CStr c). reflexivity.
  - unfold execute_agent1. simpl.
    destruct (call1 _) as [x|c]; simpl; eexists; rewrite app_nil_r; reflexivity.
  - unfold execute_agent2. simpl.
    destruct (call2 _ _) as [x|c]; simpl; eexists; rewrite app_nil_r; reflexivity.
Qed.

(** Every run of the graph, from any state (even one without messages),
    appends exactly one turn and that turn is an assistant turn: the
    router's clarification or apology, or the agent's answer or
    apology; earlier turns are left as they were. *)
Theorem run_graph_appends_one_assistant_turn : forall classify call1 call2 st,
  exists c, messages (fst (run_graph classify call1 call2 st))
            = (messages st ++ [AIMessage c])%list.
Proof. exact run_graph_one_turn. Qed.

(** Every successful chat call ends its stored conversation with an
    assistant turn, and when no error was recorded the response is that
    turn's text (its string, or its text parts joined by newlines); so
    the fallbacks for a missing or user-authored last turn never apply. *)
Theorem chat_response_is_last_assistant_turn :
  forall prior sid query images b64 classify call1 call2 r st,
  chat_endpoint prior sid query images b64 classify call1 call2 = inr (r, st) ->
  exists c, last (messages st) (HumanMessage (CStr "")) = AIMessage c
  /\ (truthy (error st) = false -> response r = ai_turn_text c).
Proof.
  intros prior sid query images b64 classify call1 call2 r st H.
  unfold chat_endpoint in H. destruct (String.eqb sid "") eqn:Hs; [discriminate|].
  set (st0 := initial_state prior
                (HumanMessage (CParts (input_message_content b64 query images)))) in H.
  destruct (run_graph_one_turn classify call1 call2 st0) as [c Hm].
  destruct (run_graph classify call1 call2 st0) as [fin hs]. simpl in Hm.
  injection H as <- <-. simpl.
  exists c. rewrite Hm. split; [apply last_last|].
  intros He. destruct fin as [ms d e]. simpl in Hm, He |- *. subst ms.
  unfold response_text_of. simpl. rewrite He.
  rewrite rev_app_distr. simpl. reflexivity.
Qed.

Lemma chat_response_is_last_assistant_turn_witness :
  let classify : Classifier := fun _ _ => inr (MkRouterOutput agent2 None) in
  let call1 : Agent1Call := fun _ => inr (CStr "analysis") in
  let call2 : Agent2Call := fun _ _ => inr (CParts [TextPart "Usually"; TextPart "30 days."]) in
  match chat_endpoint [] "s" "notice period?" [] (fun b => b) classify call1 call2 with
  | inr (r, st) =>
      exists c, last (messages st) (HumanMessage (CStr "")) = AIMessage c
      /\ (truthy (error st) = false -> response r = ai_turn_text c)
  | inl _ => False
  end.
Proof.
  intros classify call1 call2.
  destruct (chat_endpoint [] "s" "notice period?" [] (fun b => b) classify call1 call2)
    as [err | [r st]] eqn:E; [discriminate|].
  exact (chat_response_is_last_assistant_turn [] "s" "notice period?" [] (fun b => b)
           classify call1 call2 r st E).
Defined.

(** If the classifier and both agent LLMs return normally, the stored
    state of the request records no error: the error field is reset by
    the request's initial state, so an earlier request's failure does
    not carry over. *)
Theorem chat_success_no_error :
  forall prior sid query images b64 classify call1 call2 r st,
  (forall h b, exists o, classify h b = inr o) ->
  (forall ms, exists c, call1 ms = inr c) ->
  (forall q ms, exists c, call2 q ms = inr c) ->
  chat_endpoint prior sid query images b64 classify call1 call2 = inr (r, st) ->
  error st = None.
Proof.
  intros prior sid query images b64 classify call1 call2 r st Hc H1 H2 H.
  unfold chat_endpoint in H. destruct (String.eqb sid "") eqn:Hs; [discriminate|].
  unfold initial_state, run_graph in H.
  set (lm := HumanMessage (CParts (input_message_content b64 query images))) in H.
  assert (Hu : up_error (route_request classify (MkState (prior ++ [lm])%list None None))
               = None).
  { rewrite route_request_snoc.
    destruct (Hc (history_text (prior ++ [lm])%list) (has_images_in_message lm))
      as [o Ho]. rewrite Ho.
    destruct (override _ _ o) as [fd clar].
    destruct (String.eqb fd "clarify" && truthy clar); reflexivity. }
  destruct (route_request classify (MkState (prior ++ [lm])%list None None))
    as [ud um ue]. simpl in Hu. subst ue.
  unfold apply_update at 2 in H. simpl in H.
  destruct (edge_target (decide_next_node _)).
  - unfold execute_agent1 in H. simpl in H.
    match type of H with
    | context [call1 ?ms] => destruct (H1 ms) as [c Ec]; rewrite Ec in H
    end.
    injection H as _ <-. reflexivity.
  - unfold execute_agent2 in H. simpl in H.
    match type of H with
    | context [call2 ?q ?ms] => destruct (H2 q ms) as [c Ec]; rewrite Ec in H
    end.
    injection H as _ <-. reflexivity.
  - injection H as _ <-. reflexivity.
Qed.

Lemma chat_success_no_error_witness :
  let classify : Classifier := fun _ _ => inr (MkRouterOutput agent2 None) in
  let call1 : Agent1Call := fun _ => inr (CStr "analysis") in
  let call2 : Agent2Call := fun _ _ => inr (CStr "answer") in
  match chat_endpoint [] "s" "rent?" [] (fun b => b) classify call1 call2 with
  | inr (_, st) => error st = None
  | inl _ => False
  end.
Proof.
  intros classify call1 call2.
  destruct (chat_endpoint [] "s" "rent?" [] (fun b => b) classify call1 call2)
    as [err | [r st]] eqn:E; [discriminate|].
  exact (chat_success_no_error [] "s" "rent?" [] (fun b => b) classify call1 call2 r st
           (fun _ _ => ex_intro _ _ eq_refl) (fun _ => ex_intro _ _ eq_refl)
           (fun _ _ => ex_intro _ _ eq_refl) E).
Defined.

(* ------------------------------------------------------------------ *)
(* Further properties: session handling, keyword scan                  *)
(* ------------------------------------------------------------------ *)

(** An empty session_id is refused with status 400 before anything runs;
    with a non-empty one the response echoes the session_id and the
    stored conversation is the prior one, unchanged, followed by the new
    user turn and exactly one assistant turn. *)
Theorem chat_endpoint_session :
  forall prior sid query images b64 classify call1 call2,
  let user := HumanMessage (CParts (input_message_content b64 query images)) in
  (sid = "" ->
   chat_endpoint prior sid query images b64 classify call1 call2
   = inl (400, "session_id is required."))
  /\ (sid <> "" ->
      exists r st,
        chat_endpoint prior sid query images b64 classify call1 call2 = inr (r, st)
        /\ session_id r = sid
        /\ exists c, messages st = (prior ++ [user; AIMessage c])%list).
Proof.
  intros prior sid query images b64 classify call1 call2 user. split.
  - intros ->. reflexivity.
  - intros Hne. unfold chat_endpoint.
    assert (Hs : String.eqb sid "" = false) by (apply String.eqb_neq; exact Hne).
    rewrite Hs. fold user.
    destruct (run_graph_one_turn classify call1 call2 (initial_state prior user)) as [c Hm].
    destruct (run_graph classify call1 call2 (initial_state prior user)) as [fin hs].
    simpl in Hm.
    do 2 eexists. split; [reflexivity|]. split; [reflexivity|].
    exists c. rewrite Hm. simpl. rewrite <- app_assoc. reflexivity.
Qed.

Lemma chat_endpoint_session_witness :
  let classify : Classifier := fun _ _ => inr (MkRouterOutput clarify None) in
  let call1 : Agent1Call := fun _ => inr (CStr "analysis") in
  let call2 : Agent2Call := fun _ _ => inr (CStr "answer") in
  chat_endpoint [] "" "hi" [] (fun b => b) classify call1 call2
  = inl (400, "session_id is required.").
Proof.
  intros classify call1 call2.
  exact (proj1 (chat_endpoint_session [] "" "hi" [] (fun b => b) classify call1 call2)
           eq_refl).
Defined.

Lemma lower_app : forall a b, lower (a ++ b) = (lower a ++ lower b)%string.
Proof.
  induction a as [|c a IH]; intros b; simpl; [reflexivity | rewrite IH; reflexivity].
Qed.

Lemma is_prefix_app : forall p s r,
  is_prefix p s = true -> is_prefix p (s ++ r) = true.
Proof.
  induction p as [|a p IH]; intros s r H; [reflexivity|].
  destruct s as [|b s]; [discriminate|]. simpl in *.
  apply andb_prop in H as [H1 H2]. rewrite H1, (IH s r H2). reflexivity.
Qed.

Lemma contains_app_r : forall n s r,
  contains n s = true -> contains n (s ++ r) = true.
Proof.
  intros n s r. induction s as [|c s IH]; intros H.
  - simpl in H. rewrite orb_false_r in H. destruct n; [|discriminate].
    destruct r; reflexivity.
  - simpl in H |- *. apply orb_prop in H as [H|H].
    + pose proof (is_prefix_app n (String c s) r H) as H'. simpl in H'.
      rewrite H'. reflexivity.
    + rewrite (IH H). apply orb_true_r.
Qed.

Lemma contains_app_l : forall n s t,
  contains n t = true -> contains n (s ++ t) = true.
Proof.
  intros n s t H. induction s as [|c s IH]; [exact H|].
  simpl. rewrite IH. apply orb_true_r.
Qed.

(** The FAQ-keyword scan is monotone in the text: if a text contains a
    keyword, so does any text that extends it on either side. Adding
    words to a query that already names an FAQ topic can therefore
    never turn on the image override. *)
Theorem faq_keyword_extension : forall s t r,
  has_faq_keyword t = true -> has_faq_keyword (s ++ t ++ r) = true.
Proof.
  intros s t r H. unfold has_faq_keyword in *.
  apply existsb_exists in H as (k & Hin & Hk).
  apply existsb_exists. exists k. split; [exact Hin|].
  rewrite !lower_app. apply contains_app_l.
  apply contains_app_r. exact Hk.
Qed.

Lemma faq_keyword_extension_witness :
  has_faq_keyword "Is my Landlord" = true
  /\ has_faq_keyword ("Hello. " ++ "Is my Landlord" ++ " allowed to do this?") = true.
Proof.
  split; [reflexivity|].
  apply faq_keyword_extension. reflexivity.
Defined.
